(** * HIPAA audit logging of the store service

    A shallow embedding of [services/store/audit_logger.py]: the
    [AuditEvent] record with its serialisation, the [AuditMiddleware]
    request interceptor, the action catalogue, the [log_audit_event] helper
    and the set-up of the logger; of the tenant enumerations of
    [backend/app/models/tenants.py]; and of the initial database migration.
    The properties the specification states come first, further properties
    of the code after them.

    Python code that can write to the audit channel, read the clock, draw a
    random identifier or raise is written in the monad [Py]: a computation
    takes the state of the process and gives back either a value or a raised
    exception, together with the state it leaves behind.  A raised exception
    does not undo what was written before it. *)

From Stdlib Require Import String List ZArith Bool Lia DecimalString.
Import ListNotations.
Local Open Scope string_scope.
Local Open Scope list_scope.
Local Open Scope Z_scope.

(** ** Python values that reach an audit record *)

#[warnings="-register-all"]
Inductive PyVal : Type :=
| PyNone
| PyBool (b : bool)
| PyInt (z : Z)
| PyStr (s : string)
| PyDict (items : list (string * PyVal)).

(** A [dict] with string keys.  Python keeps the insertion order of the keys
    and [json.dumps] prints them in that order, so the mapping is a list of
    items in which a key occurs once. *)
Definition Dict : Type := list (string * PyVal).

(** [d.get(k)] *)
Fixpoint dict_get (d : Dict) (k : string) : option PyVal :=
  match d with
  | [] => None
  | (k', v) :: rest => if String.eqb k' k then Some v else dict_get rest k
  end.

(** [d[k] = v]: an existing key keeps its place, a new key goes last. *)
Fixpoint dict_setitem (d : Dict) (k : string) (v : PyVal) : Dict :=
  match d with
  | [] => [(k, v)]
  | (k', v') :: rest =>
      if String.eqb k' k then (k', v) :: rest
      else (k', v') :: dict_setitem rest k v
  end.

(** [d.update(other)] *)
Definition dict_update (d other : Dict) : Dict :=
  fold_left (fun acc kv => dict_setitem acc (fst kv) (snd kv)) other d.

Definition dict_keys (d : Dict) : list string := map fst d.

(** Truth value of a [dict] and of a [str]: empty is false. *)
Definition dict_truthy (d : Dict) : bool :=
  match d with [] => false | _ :: _ => true end.

Definition str_truthy (s : string) : bool :=
  match s with EmptyString => false | String _ _ => true end.

(** An [Optional[str]] attribute as a value. *)
Definition of_optional (o : option string) : PyVal :=
  match o with Some s => PyStr s | None => PyNone end.

(** ** Exceptions, process state and the monad of Python computations *)

(** What the middleware looks at in an exception object: [type(e).__name__],
    [str(e)], and whether [isinstance(e, Exception)] holds.  The last is false
    for the classes that derive from [BaseException] only
    ([asyncio.CancelledError], [KeyboardInterrupt], [SystemExit],
    [GeneratorExit]). *)
Record PyExc : Type := mkExc {
  exc_type_name : string;
  exc_str : string;
  exc_is_Exception : bool
}.

(** The state shared by everything that runs in the process: the wall clock,
    held as the text [datetime.utcnow().isoformat()] gives when read now; the
    random source, held as the identifiers [str(uuid4())] is going to give,
    in order; and the lines written to the ["brainsait.audit"] logger.  A
    line is kept as the mapping handed to [json.dumps]; the compact text and
    the ["%(asctime)s - AUDIT - "] prefix are layout added by [json] and
    [logging]. *)
Record World : Type := mkWorld {
  utcnow_isoformat : string;
  random_ids : nat -> string;
  audit_channel : list Dict
}.

Inductive Result (A : Type) : Type :=
| Returned (a : A)
| Raised (e : PyExc).
Arguments Returned {A} a.
Arguments Raised {A} e.

Definition Py (A : Type) : Type := World -> Result A * World.

Definition ret {A : Type} (a : A) : Py A := fun w => (Returned a, w).

Definition raise {A : Type} (e : PyExc) : Py A := fun w => (Raised e, w).

Definition bind {A B : Type} (m : Py A) (k : A -> Py B) : Py B :=
  fun w =>
    match m w with
    | (Returned a, w') => k a w'
    | (Raised e, w') => (Raised e, w')
    end.

(** [try: body  except Exception as e: handler(e)].  An exception that is
    not an instance of [Exception] passes through the clause. *)
Definition try_except_Exception {A : Type}
    (body : Py A) (handler : PyExc -> Py A) : Py A :=
  fun w =>
    match body w with
    | (Returned a, w') => (Returned a, w')
    | (Raised e, w') =>
        if exc_is_Exception e then handler e w' else (Raised e, w')
    end.

Declare Scope py_scope.
Delimit Scope py_scope with py.
Notation "x <- m ;; k" := (bind m (fun x => k))
  (at level 100, m at next level, right associativity) : py_scope.
Notation "m ;;; k" := (bind m (fun _ => k))
  (at level 100, right associativity) : py_scope.
Local Open Scope py_scope.

(** [audit_logger.info(line)]: the logger is set to [INFO], so the line is
    handed to the stream handler. *)
Definition audit_logger_info (line : Dict) : Py unit :=
  fun w =>
    (Returned tt,
     {| utcnow_isoformat := utcnow_isoformat w;
        random_ids := random_ids w;
        audit_channel := audit_channel w ++ [line] |}).

(** ** The request and the response as the web framework hands them over *)

Module Address.
Record t : Type := mk { host : string; port : Z }.
End Address.

Module URL.
Record t : Type := mk { path : string; query : string }.
End URL.

(** Header lookup of the framework's [Headers] mapping: the raw list of
    (name, value) pairs is searched from the front and the first pair with
    the name wins; names arrive in lower case and the names asked for below
    are lower case already. *)
Definition Headers : Type := list (string * string).

(** [headers[key]]; [None] stands for [KeyError]. *)
Fixpoint Headers_getitem (hs : Headers) (key : string) : option string :=
  match hs with
  | [] => None
  | (name, value) :: rest =>
      if String.eqb name key then Some value else Headers_getitem rest key
  end.

(** [headers.get(key, default)] *)
Definition Headers_get (hs : Headers) (key default : string) : string :=
  match Headers_getitem hs key with
  | Some value => value
  | None => default
  end.

Module Request.
Record t : Type := mk {
  method : string;
  url : URL.t;
  headers : Headers;
  client : option Address.t
}.
End Request.

Module Response.
Record t : Type := mk {
  status_code : Z;
  headers : Headers;
  body : string
}.
End Response.

(** ** AuditEvent *)

Module AuditEvent.
Record t : Type := mk {
  id : string;
  timestamp : string;
  user_id : option string;
  user_role : option string;
  action : string;
  resource : string;
  resource_id : option string;
  outcome : string;
  source_ip : string;
  user_agent : string;
  session_id : option string;
  details : Dict;
  phi_accessed : bool
}.

(** [self.outcome = v] *)
Definition set_outcome (v : string) (self : t) : t :=
  mk (id self) (timestamp self) (user_id self) (user_role self)
     (action self) (resource self) (resource_id self) v
     (source_ip self) (user_agent self) (session_id self)
     (details self) (phi_accessed self).

(** [self.details.update(other)] *)
Definition details_update (other : Dict) (self : t) : t :=
  mk (id self) (timestamp self) (user_id self) (user_role self)
     (action self) (resource self) (resource_id self) (outcome self)
     (source_ip self) (user_agent self) (session_id self)
     (dict_update (details self) other) (phi_accessed self).
End AuditEvent.

(** Defaults of the keyword parameters of [AuditEvent.__init__]. *)
Module Default.
Definition outcome : string := "success".
Definition user_id : option string := None.
Definition user_role : option string := None.
Definition resource_id : option string := None.
Definition source_ip : string := "unknown".
Definition user_agent : string := "unknown".
Definition session_id : option string := None.
Definition details : option Dict := None.
Definition phi_accessed : bool := false.
End Default.

(** Common audit actions. *)
Module AUDIT_ACTIONS.
Definition API_REQUEST := "api.request".
Definition PRODUCT_VIEW := "product.view".
Definition PRODUCT_CREATE := "product.create".
Definition PRODUCT_UPDATE := "product.update".
Definition PRODUCT_DELETE := "product.delete".
Definition ORDER_CREATE := "order.create".
Definition ORDER_VIEW := "order.view".
Definition ORDER_UPDATE := "order.update".
Definition ORDER_CANCEL := "order.cancel".
Definition LOGIN := "user.login".
Definition LOGOUT := "user.logout".
Definition LOGIN_FAILED := "user.login.failed".
Definition SYSTEM_ACCESS := "system.access".
Definition CONFIG_CHANGE := "system.config.change".
End AUDIT_ACTIONS.

(** [str(uuid4())]: takes the next identifier of the random source. *)
Definition uuid4 : Py string :=
  fun w =>
    (Returned (random_ids w O),
     {| utcnow_isoformat := utcnow_isoformat w;
        random_ids := fun n => random_ids w (S n);
        audit_channel := audit_channel w |}).

(** [datetime.utcnow().isoformat()] *)
Definition utcnow : Py string :=
  fun w => (Returned (utcnow_isoformat w), w).

(** [AuditEvent.__init__] *)
Definition AuditEvent_init
    (action resource outcome : string)
    (user_id user_role resource_id : option string)
    (source_ip user_agent : string)
    (session_id : option string)
    (details : option Dict)
    (phi_accessed : bool) : Py AuditEvent.t :=
  id <- uuid4 ;;
  timestamp <- utcnow ;;
  ret (AuditEvent.mk id timestamp user_id user_role action resource
         resource_id outcome source_ip user_agent session_id
         (match details with
          | Some d => if dict_truthy d then d else []
          | None => []
          end)
         phi_accessed).

(** [AuditEvent.to_dict] *)
Definition to_dict (self : AuditEvent.t) : Py Dict :=
  ret [ ("id", PyStr (AuditEvent.id self));
        ("timestamp", PyStr (AuditEvent.timestamp self));
        ("user_id", of_optional (AuditEvent.user_id self));
        ("user_role", of_optional (AuditEvent.user_role self));
        ("action", PyStr (AuditEvent.action self));
        ("resource", PyStr (AuditEvent.resource self));
        ("resource_id", of_optional (AuditEvent.resource_id self));
        ("outcome", PyStr (AuditEvent.outcome self));
        ("source_ip", PyStr (AuditEvent.source_ip self));
        ("user_agent", PyStr (AuditEvent.user_agent self));
        ("session_id", of_optional (AuditEvent.session_id self));
        ("details", PyDict (AuditEvent.details self));
        ("phi_accessed", PyBool (AuditEvent.phi_accessed self)) ].

(** [AuditEvent.log] *)
Definition log (self : AuditEvent.t) : Py unit :=
  line <- to_dict self ;;
  audit_logger_info line.

(** [AuditMiddleware.dispatch] *)
Definition dispatch (request : Request.t)
    (call_next : Request.t -> Py Response.t) : Py Response.t :=
  let source_ip :=
    Headers_get (Request.headers request) "x-forwarded-for"
      (Headers_get (Request.headers request) "x-real-ip"
         (match Request.client request with
          | Some peer => Address.host peer
          | None => "unknown"
          end)) in
  let user_agent :=
    Headers_get (Request.headers request) "user-agent" "unknown" in
  audit_event <-
    AuditEvent_init "api.request" (URL.path (Request.url request))
      Default.outcome Default.user_id Default.user_role Default.resource_id
      source_ip user_agent Default.session_id
      (Some [ ("method", PyStr (Request.method request));
              ("path", PyStr (URL.path (Request.url request)));
              ("query",
               if str_truthy (URL.query (Request.url request))
               then PyStr (URL.query (Request.url request))
               else PyNone) ])
      Default.phi_accessed ;;
  try_except_Exception
    (response <- call_next request ;;
     let audit_event :=
       AuditEvent.set_outcome
         (if Response.status_code response <? 400
          then "success" else "failure")
         audit_event in
     let audit_event :=
       AuditEvent.details_update
         [ ("status_code", PyInt (Response.status_code response));
           ("response_time_ms", PyNone) ]
         audit_event in
     log audit_event ;;;
     ret response)
    (fun e =>
       let audit_event := AuditEvent.set_outcome "failure" audit_event in
       let audit_event :=
         AuditEvent.details_update
           [ ("error", PyStr (exc_str e));
             ("exception_type", PyStr (exc_type_name e)) ]
           audit_event in
       log audit_event ;;;
       raise e).

(** [log_audit_event]: the helper has no [user_role], [source_ip],
    [user_agent] or [session_id] parameter, so the constructor's defaults
    apply to them. *)
Definition log_audit_event
    (action resource outcome : string)
    (user_id resource_id : option string)
    (details : option Dict)
    (phi_accessed : bool) : Py unit :=
  event <-
    AuditEvent_init action resource outcome user_id Default.user_role
      resource_id Default.source_ip Default.user_agent Default.session_id
      details phi_accessed ;;
  log event.

(** ** Reading the run of [dispatch] *)

(** The state of the process when [dispatch] reaches
    [await call_next(request)]: the event has been built, which took one
    identifier from the random source and read the clock. *)
Definition call_site (w : World) : World := snd (uuid4 w).

(** Whether the [try] statement of [dispatch] gets to a [log()] call once the
    downstream call is over: it returned, or it raised an instance of
    [Exception]. *)
Definition reaches_log {A : Type} (r : Result A) : bool :=
  match r with
  | Returned _ => true
  | Raised e => exc_is_Exception e
  end.

(** ** Sample requests, handlers and process states *)

Module Example.
Definition world : World :=
  {| utcnow_isoformat := "2024-05-01T09:30:00.000125";
     random_ids := fun _ => "5b0c1e0e-7a0b-4c58-9d0e-2f6a1c3d4e5f";
     audit_channel := [] |}.

(** [GET /api/products], no headers, no peer address. *)
Definition get_products : Request.t :=
  Request.mk "GET" (URL.mk "/api/products" "") [] None.

(** [GET /api/orders?page=2] through a proxy: both proxy headers are set
    and the peer address is the proxy's. *)
Definition proxied : Request.t :=
  Request.mk "GET" (URL.mk "/api/orders" "page=2")
    [ ("user-agent", "curl/8.5.0");
      ("x-real-ip", "198.51.100.9");
      ("x-forwarded-for", "203.0.113.5") ]
    (Some (Address.mk "10.0.0.7" 51234)).

Definition response (status : Z) : Response.t :=
  Response.mk status [("content-type", "application/json")]
    "{'orders':[],'total':0,'currency':'SAR'}".

(** A downstream handler that returns a response. *)
Definition respond (status : Z) : Request.t -> Py Response.t :=
  fun _ => ret (response status).

(** A downstream handler that writes an audit line of its own, for a signed-in
    user looking at an order, and then returns a response. *)
Definition view_order : Request.t -> Py Response.t :=
  fun _ =>
    log_audit_event AUDIT_ACTIONS.ORDER_VIEW "order" "success"
      (Some "user-17") (Some "42") None true ;;;
    ret (response 200).

(** A downstream handler that raises. *)
Definition fail_with (e : PyExc) : Request.t -> Py Response.t :=
  fun _ => raise e.

(** [RuntimeError("boom")], [RuntimeError()] and the cancellation of the
    task that awaits the downstream call. *)
Definition boom : PyExc := mkExc "RuntimeError" "boom" true.
Definition bare_runtime_error : PyExc := mkExc "RuntimeError" "" true.
Definition cancelled : PyExc := mkExc "CancelledError" "" false.
End Example.

(** ** Configuration of the audit logger

    The module body of [audit_logger.py] runs each time the module is
    executed, always against the one logger the name ["brainsait.audit"]
    stands for in the process. *)

Module Logging.
Definition DEBUG : Z := 10.
Definition WARNING : Z := 30.
Definition ERROR : Z := 40.
Definition CRITICAL : Z := 50.

(** A stream handler with the format and the date format of its
    formatter. *)
Record Handler : Type := mkHandler { fmt : string; datefmt : string }.

Record Logger : Type := mkLogger { level : Z; handlers : list Handler }.


End Logging.


(** ** Tenant enumerations ([backend/app/models/tenants.py]) *)

Module TenantStatus.
Inductive t : Type := ACTIVE | SUSPENDED | CANCELLED | TRIAL.

Definition value (member : t) : string :=
  match member with
  | ACTIVE => "active"
  | SUSPENDED => "suspended"
  | CANCELLED => "cancelled"
  | TRIAL => "trial"
  end.

(** The members in the order of their definition. *)
Definition members : list t := [ACTIVE; SUSPENDED; CANCELLED; TRIAL].

(** [TenantStatus(v)]: the member with the value [v]; [None] stands for
    [ValueError]. *)
Definition of_value (v : string) : option t :=
  find (fun member => String.eqb (value member) v) members.
End TenantStatus.

Module TenantPlan.
Inductive t : Type := STARTER | PROFESSIONAL | ENTERPRISE | CUSTOM.

Definition value (member : t) : string :=
  match member with
  | STARTER => "starter"
  | PROFESSIONAL => "professional"
  | ENTERPRISE => "enterprise"
  | CUSTOM => "custom"
  end.

Definition members : list t := [STARTER; PROFESSIONAL; ENTERPRISE; CUSTOM].

(** [TenantPlan(v)]; [None] stands for [ValueError]. *)
Definition of_value (v : string) : option t :=
  find (fun member => String.eqb (value member) v) members.
End TenantPlan.

(** ** The initial migration
    ([backend/alembic/versions/9ff80080f0c4_initial_migration_with_all_models.py]) *)

Module Migration.
(** What the migration sees and changes: the names of the tables of the
    database it is bound to, and the lines it prints.  Constraints between
    tables are not part of the picture. *)
Record Env : Type := mkEnv { tables : list string; printed : list string }.

Definition revision : string := "9ff80080f0c4".
Definition down_revision : option string := None.

Definition has_table (name : string) (ts : list string) : bool :=
  existsb (String.eqb name) ts.

(** [Base.metadata.create_all(bind=connection)]: goes through the tables
    registered with the metadata and creates each one the database does not
    have yet. *)
Definition create_all (metadata ts : list string) : list string :=
  fold_left (fun acc name => if has_table name acc then acc else acc ++ [name])
    metadata ts.

(** [str(n)] for a length. *)
Definition str_of_len (n : nat) : string :=
  NilZero.string_of_uint (Nat.to_uint n).

(** [upgrade()]; [metadata] names the tables that the models imported on
    lines 37 to 39 register. *)
Definition upgrade (metadata : list string) (env : Env) : Env :=
  let existing_tables := tables env in
  match existing_tables with
  | _ :: _ =>
      mkEnv (tables env)
        (printed env ++
           [ ("Skipping table creation - "
              ++ str_of_len (length existing_tables)
              ++ " tables already exist")%string ])
  | [] => mkEnv (create_all metadata (tables env)) (printed env)
  end.

(** [op.drop_table(name)]; [None] stands for the error the database raises
    for a table it does not have. *)
Definition drop_table (name : string) (env : Env) : option Env :=
  if has_table name (tables env)
  then Some (mkEnv (filter (fun t => negb (String.eqb name t)) (tables env))
               (printed env))
  else None.

Definition and_then (r : option Env) (k : Env -> option Env) : option Env :=
  match r with
  | Some env => k env
  | None => None
  end.

(** [downgrade()] *)
Definition downgrade (env : Env) : option Env :=
  and_then (drop_table "analytics" env) (fun env =>
  and_then (drop_table "sso" env) (fun env =>
  and_then (drop_table "invoices" env) (fun env =>
  and_then (drop_table "payments" env) (fun env =>
  and_then (drop_table "orders" env) (fun env =>
  and_then (drop_table "products" env) (fun env =>
  drop_table "users" env)))))).

(** The tables [downgrade] names, in the order it drops them. *)
Definition dropped : list string :=
  [ "analytics"; "sso"; "invoices"; "payments"; "orders"; "products";
    "users" ].
End Migration.

(** ** More sample data *)

Module Sample.
(** A route handler that records a domain action through the helper and
    then returns its response. *)
Definition audited_route
    (action resource outcome : string) (user_id resource_id : option string)
    (details : option Dict) (phi_accessed : bool) (response : Response.t)
  : Request.t -> Py Response.t :=
  fun _ =>
    log_audit_event action resource outcome user_id resource_id details
      phi_accessed ;;;
    ret response.

(** A downstream handler that takes a while: the clock has moved on when it
    returns. *)
Definition slow_route (later : string) (response : Response.t)
  : Request.t -> Py Response.t :=
  fun _ w =>
    (Returned response,
     {| utcnow_isoformat := later;
        random_ids := random_ids w;
        audit_channel := audit_channel w |}).

(** A random source that gives a different identifier each time. *)
Definition fresh_world : World :=
  {| utcnow_isoformat := "2024-05-01T09:30:00.000125";
     random_ids := fun n => ("id-" ++ Migration.str_of_len n)%string;
     audit_channel := [] |}.

(** The logger as a process first finds it, and as another part of the
    program may have set it up before. *)
Definition new_logger : Logging.Logger := Logging.mkLogger 0 [].
Definition foreign_logger : Logging.Logger :=
  Logging.mkLogger Logging.ERROR [Logging.mkHandler "%(message)s" ""].

(** The tables of a schema that has the tenant tables beside the seven the
    migration names. *)
Definition schema : list string :=
  [ "tenants"; "users"; "products"; "orders"; "payments"; "invoices"; "sso";
    "analytics"; "tenant_audit_logs" ].

Definition empty_database : Migration.Env := Migration.mkEnv [] [].
Definition foreign_database : Migration.Env :=
  Migration.mkEnv ["alembic_version"] [].
End Sample.

Ltac run_dispatch H :=
  unfold call_site, uuid4 in H; cbn in H;
  unfold dispatch, AuditEvent_init, try_except_Exception, log, to_dict,
    audit_logger_info, bind, uuid4, utcnow, ret, raise;
  cbn; rewrite H; cbn.

(** The same for a downstream result [r] that gets to [log()]: both ways the
    call can end are run. *)
Ltac run_dispatch_logged r H HL :=
  destruct r as [? | ?]; cbn in HL; run_dispatch H;
  [ | rewrite HL; cbn ].

(** Both directions of a lookup by value in an enumeration; [expose] unfolds
    the lookup down to the comparisons of strings. *)
Ltac enum_of_value_iff expose v m :=
  split;
  [ expose;
    repeat
      match goal with
      | |- context [String.eqb ?s v] =>
          destruct (String.eqb_spec s v); [subst v |]
      end;
    intros Hfound; (discriminate Hfound || (now inversion Hfound))
  | intros <-; destruct m; reflexivity ].

(** ** Supporting facts *)

Lemma audit_logger_info_channel line w :
  audit_channel (snd (audit_logger_info line w)) = audit_channel w ++ [line].
Proof. reflexivity. Qed.

Lemma call_site_channel w : audit_channel (call_site w) = audit_channel w.
Proof. reflexivity. Qed.

(** A header is looked up in vain exactly when no pair carries its name. *)
Lemma Headers_getitem_None hs key :
  Headers_getitem hs key = None <-> ~ In key (map fst hs).
Proof.
  induction hs as [| [name value] rest IH]; cbn.
  - tauto.
  - destruct (String.eqb_spec name key) as [E | NE].
    + split; [discriminate | intros H; exfalso; apply H; now left].
    + rewrite IH. split.
      * intros H [E | HIn]; [now apply NE | now apply H].
      * intros H HIn. apply H. now right.
Qed.

(** The helper builds one event from its arguments and logs it. *)
Lemma log_audit_event_line action resource outcome user_id resource_id
    details phi_accessed w :
  exists line,
    log_audit_event action resource outcome user_id resource_id details
      phi_accessed w
      = (Returned tt, snd (audit_logger_info line (call_site w))) /\
    dict_get line "action" = Some (PyStr action) /\
    dict_get line "resource" = Some (PyStr resource) /\
    dict_get line "outcome" = Some (PyStr outcome) /\
    dict_get line "user_id" = Some (of_optional user_id) /\
    dict_get line "resource_id" = Some (of_optional resource_id) /\
    dict_get line "phi_accessed" = Some (PyBool phi_accessed) /\
    dict_get line "user_role" = Some PyNone /\
    dict_get line "session_id" = Some PyNone.
Proof.
  eexists. repeat split; reflexivity.
Qed.

(** ** The middleware logs once, and before it hands control back *)

(** C1, as the code has it.  When the downstream call returns a response or
    raises an instance of [Exception], [dispatch] writes exactly one line to
    the audit channel, after whatever the downstream call wrote and nothing
    before it, and the state in which the caller receives the response or
    the re-raised exception already holds that line.  When the downstream
    call ends with an exception that is not an instance of [Exception], the
    [except Exception] clause does not apply: nothing is written and the
    exception goes on to the caller. *)
Theorem dispatch_logs_once request call_next w r w' :
  call_next request (call_site w) = (r, w') ->
  audit_channel (call_site w) = audit_channel w /\
  (reaches_log r = true ->
     exists line,
       dispatch request call_next w = (r, snd (audit_logger_info line w')) /\
       audit_channel (snd (dispatch request call_next w))
         = audit_channel w' ++ [line]) /\
  (reaches_log r = false ->
     dispatch request call_next w = (r, w')).
Proof.
  intros H. split; [reflexivity |]. split; intros HL.
  - run_dispatch_logged r H HL; eexists; split; reflexivity.
  - destruct r as [response | e]; cbn in HL; [discriminate |].
    run_dispatch H. rewrite HL. reflexivity.
Qed.

Lemma dispatch_logs_once_witness :
  Example.fail_with Example.boom Example.proxied (call_site Example.world)
    = (Raised Example.boom, call_site Example.world) /\
  (exists line,
     dispatch Example.proxied (Example.fail_with Example.boom) Example.world
       = (Raised Example.boom,
          snd (audit_logger_info line (call_site Example.world))) /\
     audit_channel
       (snd (dispatch Example.proxied (Example.fail_with Example.boom)
               Example.world))
       = audit_channel (call_site Example.world) ++ [line]) /\
  Example.fail_with Example.cancelled Example.proxied
    (call_site Example.world)
    = (Raised Example.cancelled, call_site Example.world) /\
  dispatch Example.proxied (Example.fail_with Example.cancelled)
    Example.world
    = (Raised Example.cancelled, call_site Example.world).
Proof.
  split; [reflexivity |]. split.
  - exact (proj1 (proj2 (dispatch_logs_once Example.proxied
                           (Example.fail_with Example.boom) Example.world
                           (Raised Example.boom) (call_site Example.world)
                           eq_refl))
             eq_refl).
  - split; [reflexivity |].
    exact (proj2 (proj2 (dispatch_logs_once Example.proxied
                           (Example.fail_with Example.cancelled)
                           Example.world (Raised Example.cancelled)
                           (call_site Example.world) eq_refl))
             eq_refl).
Defined.

(** C1, as stated, fails: the task that awaits the downstream call is
    cancelled, [CancelledError] is not an instance of [Exception], and
    [dispatch] hands the exception on with no line written. *)
Lemma dispatch_cancelled_logs_nothing :
  dispatch Example.get_products (Example.fail_with Example.cancelled)
    Example.world
    = (Raised Example.cancelled, call_site Example.world) /\
  audit_channel
    (snd (dispatch Example.get_products (Example.fail_with Example.cancelled)
            Example.world)) = [] /\
  ~ (exists line,
       audit_channel
         (snd (dispatch Example.get_products
                 (Example.fail_with Example.cancelled) Example.world))
       = audit_channel (call_site Example.world) ++ [line]).
Proof.
  split; [reflexivity |]. split; [reflexivity |].
  intros [line H]. cbn in H. discriminate H.
Qed.

(** ** The success path *)

(** C2.  When the downstream call returns a response, the line [dispatch]
    writes has outcome ["success"] for a status code below 400 and
    ["failure"] for a status code of 400 or more. *)
Theorem dispatch_outcome_by_status request call_next w response w' :
  call_next request (call_site w) = (Returned response, w') ->
  exists line,
    audit_channel (snd (dispatch request call_next w))
      = audit_channel w' ++ [line] /\
    (Response.status_code response < 400 ->
       dict_get line "outcome" = Some (PyStr "success")) /\
    (400 <= Response.status_code response ->
       dict_get line "outcome" = Some (PyStr "failure")).
Proof.
  intros H. run_dispatch H. eexists. split; [reflexivity |].
  cbn. destruct (Z.ltb_spec (Response.status_code response) 400);
    split; intros; (reflexivity || lia).
Qed.

Lemma dispatch_outcome_by_status_witness :
  Example.respond 404 Example.get_products (call_site Example.world)
    = (Returned (Example.response 404), call_site Example.world) /\
  exists line,
    audit_channel
      (snd (dispatch Example.get_products (Example.respond 404)
              Example.world))
      = audit_channel (call_site Example.world) ++ [line] /\
    dict_get line "outcome" = Some (PyStr "failure").
Proof.
  split; [reflexivity |].
  destruct (dispatch_outcome_by_status Example.get_products
              (Example.respond 404) Example.world (Example.response 404)
              (call_site Example.world) eq_refl)
    as [line [Hline [_ Hfailure]]].
  exists line. split; [exact Hline |].
  apply Hfailure. cbn. discriminate.
Defined.

(** C6.  When the downstream call returns a response, the details of the
    line hold the response's status code as a number under [status_code] and
    the null value under [response_time_ms]: no time is measured. *)
Theorem dispatch_status_details request call_next w response w' :
  call_next request (call_site w) = (Returned response, w') ->
  exists line details,
    audit_channel (snd (dispatch request call_next w))
      = audit_channel w' ++ [line] /\
    dict_get line "details" = Some (PyDict details) /\
    dict_get details "status_code"
      = Some (PyInt (Response.status_code response)) /\
    dict_get details "response_time_ms" = Some PyNone.
Proof.
  intros H. run_dispatch H. do 2 eexists. repeat split; reflexivity.
Qed.

Lemma dispatch_status_details_witness :
  Example.respond 200 Example.proxied (call_site Example.world)
    = (Returned (Example.response 200), call_site Example.world) /\
  exists line details,
    audit_channel
      (snd (dispatch Example.proxied (Example.respond 200) Example.world))
      = audit_channel (call_site Example.world) ++ [line] /\
    dict_get line "details" = Some (PyDict details) /\
    dict_get details "status_code" = Some (PyInt 200) /\
    dict_get details "response_time_ms" = Some PyNone.
Proof.
  split; [reflexivity |].
  exact (dispatch_status_details Example.proxied (Example.respond 200)
           Example.world (Example.response 200) (call_site Example.world)
           eq_refl).
Defined.

(** C7.  When the downstream call returns a response, [dispatch] returns
    that very response, and leaves the process as the downstream call left
    it but for its one audit line. *)
Theorem dispatch_returns_response request call_next w response w' :
  call_next request (call_site w) = (Returned response, w') ->
  fst (dispatch request call_next w) = Returned response /\
  utcnow_isoformat (snd (dispatch request call_next w)) = utcnow_isoformat w' /\
  random_ids (snd (dispatch request call_next w)) = random_ids w' /\
  firstn (length (audit_channel w'))
    (audit_channel (snd (dispatch request call_next w))) = audit_channel w'.
Proof.
  intros H. run_dispatch H. repeat split.
  rewrite firstn_app, firstn_all, Nat.sub_diag. cbn. apply app_nil_r.
Qed.

Lemma dispatch_returns_response_witness :
  Example.respond 503 Example.proxied (call_site Example.world)
    = (Returned (Example.response 503), call_site Example.world) /\
  fst (dispatch Example.proxied (Example.respond 503) Example.world)
    = Returned (Example.response 503).
Proof.
  split; [reflexivity |].
  exact (proj1 (dispatch_returns_response Example.proxied
                  (Example.respond 503) Example.world (Example.response 503)
                  (call_site Example.world) eq_refl)).
Defined.

(** ** The failure path *)

(** C3, as the code has it.  When the downstream call raises an instance of
    [Exception], the line [dispatch] writes has outcome ["failure"], its
    details hold [str(e)] under [error] and [type(e).__name__] under
    [exception_type], each exactly as the exception gives it, and the caller
    then receives the same exception. *)
Theorem dispatch_logs_and_reraises request call_next w e w' :
  call_next request (call_site w) = (Raised e, w') ->
  exc_is_Exception e = true ->
  exists line details,
    dispatch request call_next w
      = (Raised e, snd (audit_logger_info line w')) /\
    dict_get line "outcome" = Some (PyStr "failure") /\
    dict_get line "details" = Some (PyDict details) /\
    dict_get details "error" = Some (PyStr (exc_str e)) /\
    dict_get details "exception_type" = Some (PyStr (exc_type_name e)).
Proof.
  intros H HE. run_dispatch H. rewrite HE. cbn.
  do 2 eexists. repeat split; reflexivity.
Qed.

Lemma dispatch_logs_and_reraises_witness :
  Example.fail_with Example.boom Example.get_products
    (call_site Example.world)
    = (Raised Example.boom, call_site Example.world) /\
  exc_is_Exception Example.boom = true /\
  exists line details,
    dispatch Example.get_products (Example.fail_with Example.boom)
      Example.world
      = (Raised Example.boom,
         snd (audit_logger_info line (call_site Example.world))) /\
    dict_get line "outcome" = Some (PyStr "failure") /\
    dict_get line "details" = Some (PyDict details) /\
    dict_get details "error" = Some (PyStr "boom") /\
    dict_get details "exception_type" = Some (PyStr "RuntimeError").
Proof.
  split; [reflexivity |]. split; [reflexivity |].
  exact (dispatch_logs_and_reraises Example.get_products
           (Example.fail_with Example.boom) Example.world Example.boom
           (call_site Example.world) eq_refl eq_refl).
Defined.

(** C3, as stated, fails twice over.  [RuntimeError()] has the empty string
    as its message, and that is what the line holds under [error]; and the
    cancellation of the awaiting task is raised past [dispatch] with no
    line written at all. *)
Lemma dispatch_raise_not_as_stated :
  (exists line details,
     audit_channel
       (snd (dispatch Example.get_products
               (Example.fail_with Example.bare_runtime_error) Example.world))
       = [line] /\
     dict_get line "details" = Some (PyDict details) /\
     dict_get details "error" = Some (PyStr "")) /\
  audit_channel
    (snd (dispatch Example.get_products
            (Example.fail_with Example.cancelled) Example.world)) = [].
Proof.
  split; [| reflexivity].
  do 2 eexists. repeat split; reflexivity.
Qed.

(** ** What every line of the middleware says about the request *)

(** C4.  The [source_ip] of the line is the value of the [x-forwarded-for]
    header when the request has one; failing that the value of [x-real-ip];
    failing that the host of the peer address; failing that ["unknown"]. *)
Theorem dispatch_source_ip request call_next w r w' :
  call_next request (call_site w) = (r, w') ->
  reaches_log r = true ->
  exists line,
    audit_channel (snd (dispatch request call_next w))
      = audit_channel w' ++ [line] /\
    dict_get line "source_ip"
      = Some (PyStr
          match Headers_getitem (Request.headers request) "x-forwarded-for"
          with
          | Some forwarded => forwarded
          | None =>
              match Headers_getitem (Request.headers request) "x-real-ip"
              with
              | Some real => real
              | None =>
                  match Request.client request with
                  | Some peer => Address.host peer
                  | None => "unknown"
                  end
              end
          end).
Proof.
  intros H HL. run_dispatch_logged r H HL;
    eexists; (split; [reflexivity |]); cbn; unfold Headers_get;
    destruct (Headers_getitem (Request.headers request) "x-forwarded-for");
    reflexivity.
Qed.

Lemma dispatch_source_ip_witness :
  Example.respond 200 Example.proxied (call_site Example.world)
    = (Returned (Example.response 200), call_site Example.world) /\
  reaches_log (Returned (Example.response 200)) = true /\
  Request.client Example.proxied = Some (Address.mk "10.0.0.7" 51234) /\
  exists line,
    audit_channel
      (snd (dispatch Example.proxied (Example.respond 200) Example.world))
      = audit_channel (call_site Example.world) ++ [line] /\
    dict_get line "source_ip" = Some (PyStr "203.0.113.5").
Proof.
  split; [reflexivity |]. split; [reflexivity |]. split; [reflexivity |].
  exact (dispatch_source_ip Example.proxied (Example.respond 200)
           Example.world (Returned (Example.response 200))
           (call_site Example.world) eq_refl eq_refl).
Defined.

(** C5.  The details of the line hold the request's method and path as
    they came in, and under [query] the null value when the query string is
    empty and the query string itself otherwise. *)
Theorem dispatch_request_details request call_next w r w' :
  call_next request (call_site w) = (r, w') ->
  reaches_log r = true ->
  exists line details,
    audit_channel (snd (dispatch request call_next w))
      = audit_channel w' ++ [line] /\
    dict_get line "details" = Some (PyDict details) /\
    dict_get details "method" = Some (PyStr (Request.method request)) /\
    dict_get details "path"
      = Some (PyStr (URL.path (Request.url request))) /\
    dict_get details "query"
      = Some (match URL.query (Request.url request) with
              | EmptyString => PyNone
              | String _ _ => PyStr (URL.query (Request.url request))
              end).
Proof.
  intros H HL. run_dispatch_logged r H HL;
    do 2 eexists; repeat split; cbn;
    destruct (URL.query (Request.url request)); reflexivity.
Qed.

Lemma dispatch_request_details_witness :
  Example.fail_with Example.boom Example.proxied (call_site Example.world)
    = (Raised Example.boom, call_site Example.world) /\
  reaches_log (@Raised Response.t Example.boom) = true /\
  exists line details,
    audit_channel
      (snd (dispatch Example.proxied (Example.fail_with Example.boom)
              Example.world))
      = audit_channel (call_site Example.world) ++ [line] /\
    dict_get line "details" = Some (PyDict details) /\
    dict_get details "method" = Some (PyStr "GET") /\
    dict_get details "path" = Some (PyStr "/api/orders") /\
    dict_get details "query" = Some (PyStr "page=2").
Proof.
  split; [reflexivity |]. split; [reflexivity |].
  exact (dispatch_request_details Example.proxied
           (Example.fail_with Example.boom) Example.world
           (Raised Example.boom) (call_site Example.world) eq_refl eq_refl).
Defined.

(** C10.  The line of the middleware has the null value under [user_id],
    [user_role], [session_id] and [resource_id], and false under
    [phi_accessed]: [dispatch] passes none of them to the constructor and
    assigns none of them afterwards. *)
Theorem dispatch_no_actor request call_next w r w' :
  call_next request (call_site w) = (r, w') ->
  reaches_log r = true ->
  exists line,
    audit_channel (snd (dispatch request call_next w))
      = audit_channel w' ++ [line] /\
    dict_get line "user_id" = Some PyNone /\
    dict_get line "user_role" = Some PyNone /\
    dict_get line "session_id" = Some PyNone /\
    dict_get line "resource_id" = Some PyNone /\
    dict_get line "phi_accessed" = Some (PyBool false).
Proof.
  intros H HL. run_dispatch_logged r H HL;
    eexists; repeat split; reflexivity.
Qed.

Lemma dispatch_no_actor_witness :
  Example.view_order Example.proxied (call_site Example.world)
    = (Returned (Example.response 200),
       snd (Example.view_order Example.proxied (call_site Example.world))) /\
  reaches_log (Returned (Example.response 200)) = true /\
  exists line,
    audit_channel
      (snd (dispatch Example.proxied Example.view_order Example.world))
      = audit_channel
          (snd (Example.view_order Example.proxied (call_site Example.world)))
        ++ [line] /\
    dict_get line "user_id" = Some PyNone /\
    dict_get line "user_role" = Some PyNone /\
    dict_get line "session_id" = Some PyNone /\
    dict_get line "resource_id" = Some PyNone /\
    dict_get line "phi_accessed" = Some (PyBool false).
Proof.
  split; [reflexivity |]. split; [reflexivity |].
  exact (dispatch_no_actor Example.proxied Example.view_order Example.world
           (Returned (Example.response 200))
           (snd (Example.view_order Example.proxied
                   (call_site Example.world)))
           eq_refl eq_refl).
Defined.

(** ** Serialisation *)

(** C8.  [to_dict] gives a mapping with the thirteen keys [id], [timestamp],
    [user_id], [user_role], [action], [resource], [resource_id], [outcome],
    [source_ip], [user_agent], [session_id], [details], [phi_accessed], once
    each and no other, every key holding the attribute of its name; the
    details are held as a mapping of their own under [details]. *)
Theorem to_dict_keys self w :
  exists d,
    to_dict self w = (Returned d, w) /\
    dict_keys d
      = [ "id"; "timestamp"; "user_id"; "user_role"; "action"; "resource";
          "resource_id"; "outcome"; "source_ip"; "user_agent"; "session_id";
          "details"; "phi_accessed" ] /\
    NoDup (dict_keys d) /\
    dict_get d "id" = Some (PyStr (AuditEvent.id self)) /\
    dict_get d "timestamp" = Some (PyStr (AuditEvent.timestamp self)) /\
    dict_get d "user_id" = Some (of_optional (AuditEvent.user_id self)) /\
    dict_get d "user_role" = Some (of_optional (AuditEvent.user_role self)) /\
    dict_get d "action" = Some (PyStr (AuditEvent.action self)) /\
    dict_get d "resource" = Some (PyStr (AuditEvent.resource self)) /\
    dict_get d "resource_id"
      = Some (of_optional (AuditEvent.resource_id self)) /\
    dict_get d "outcome" = Some (PyStr (AuditEvent.outcome self)) /\
    dict_get d "source_ip" = Some (PyStr (AuditEvent.source_ip self)) /\
    dict_get d "user_agent" = Some (PyStr (AuditEvent.user_agent self)) /\
    dict_get d "session_id"
      = Some (of_optional (AuditEvent.session_id self)) /\
    dict_get d "details" = Some (PyDict (AuditEvent.details self)) /\
    dict_get d "phi_accessed" = Some (PyBool (AuditEvent.phi_accessed self)).
Proof.
  eexists. split; [reflexivity |]. split; [reflexivity |].
  split; [| repeat split; reflexivity].
  cbn. repeat constructor; cbn; intuition discriminate.
Qed.

(** C9.  [to_dict] reads the attributes of the event and nothing else: it
    leaves the process as it found it, and two calls on the same event give
    the same mapping whatever happened to the clock and the random source in
    between.  For an event as the constructor leaves it, the mapping holds
    the identifier drawn and the clock text read at construction. *)
Theorem to_dict_idempotent :
  (forall self w_first w_second,
     exists d,
       to_dict self w_first = (Returned d, w_first) /\
       to_dict self w_second = (Returned d, w_second)) /\
  (forall action resource outcome user_id user_role resource_id source_ip
          user_agent session_id details phi_accessed w,
     exists self,
       AuditEvent_init action resource outcome user_id user_role resource_id
         source_ip user_agent session_id details phi_accessed w
         = (Returned self, call_site w) /\
       forall w_later,
         exists d,
           to_dict self w_later = (Returned d, w_later) /\
           dict_get d "id" = Some (PyStr (random_ids w O)) /\
           dict_get d "timestamp" = Some (PyStr (utcnow_isoformat w))).
Proof.
  split.
  - intros self w_first w_second. eexists. split; reflexivity.
  - intros. eexists. split; [reflexivity |].
    intros w_later. eexists. repeat split; reflexivity.
Qed.

(** * Further properties of the code *)

(** ** More about the line of the middleware *)

(** X1.  The [user_agent] of the line is the value of the [user-agent]
    header when the request has one, and ["unknown"] otherwise. *)
Theorem dispatch_user_agent request call_next w r w' :
  call_next request (call_site w) = (r, w') ->
  reaches_log r = true ->
  exists line,
    audit_channel (snd (dispatch request call_next w))
      = audit_channel w' ++ [line] /\
    dict_get line "user_agent"
      = Some (PyStr
          match Headers_getitem (Request.headers request) "user-agent" with
          | Some agent => agent
          | None => "unknown"
          end).
Proof.
  intros H HL. run_dispatch_logged r H HL;
    eexists; (split; [reflexivity |]); reflexivity.
Qed.

Lemma dispatch_user_agent_witness :
  Example.respond 200 Example.get_products (call_site Example.world)
    = (Returned (Example.response 200), call_site Example.world) /\
  reaches_log (Returned (Example.response 200)) = true /\
  exists line,
    audit_channel
      (snd (dispatch Example.get_products (Example.respond 200)
              Example.world))
      = audit_channel (call_site Example.world) ++ [line] /\
    dict_get line "user_agent" = Some (PyStr "unknown").
Proof.
  split; [reflexivity |]. split; [reflexivity |].
  exact (dispatch_user_agent Example.get_products (Example.respond 200)
           Example.world (Returned (Example.response 200))
           (call_site Example.world) eq_refl eq_refl).
Defined.

(** X2.  The line of the middleware carries the action of the catalogue's
    [API_REQUEST] entry and the request's path as its resource, whichever
    way the downstream call ends. *)
Theorem dispatch_action_resource request call_next w r w' :
  call_next request (call_site w) = (r, w') ->
  reaches_log r = true ->
  exists line,
    audit_channel (snd (dispatch request call_next w))
      = audit_channel w' ++ [line] /\
    dict_get line "action" = Some (PyStr AUDIT_ACTIONS.API_REQUEST) /\
    dict_get line "resource"
      = Some (PyStr (URL.path (Request.url request))).
Proof.
  intros H HL. run_dispatch_logged r H HL;
    eexists; repeat split; reflexivity.
Qed.

Lemma dispatch_action_resource_witness :
  Example.fail_with Example.boom Example.proxied (call_site Example.world)
    = (Raised Example.boom, call_site Example.world) /\
  reaches_log (@Raised Response.t Example.boom) = true /\
  exists line,
    audit_channel
      (snd (dispatch Example.proxied (Example.fail_with Example.boom)
              Example.world))
      = audit_channel (call_site Example.world) ++ [line] /\
    dict_get line "action" = Some (PyStr "api.request") /\
    dict_get line "resource" = Some (PyStr "/api/orders").
Proof.
  split; [reflexivity |]. split; [reflexivity |].
  exact (dispatch_action_resource Example.proxied
           (Example.fail_with Example.boom) Example.world
           (Raised Example.boom) (call_site Example.world) eq_refl eq_refl).
Defined.

(** X3.  The line is stamped on arrival: its [id] is the identifier drawn,
    and its [timestamp] the clock text read, before the downstream call
    starts; what the downstream call does to the clock or to the random
    source does not show in them. *)
Theorem dispatch_stamped_on_arrival request call_next w r w' :
  call_next request (call_site w) = (r, w') ->
  reaches_log r = true ->
  exists line,
    audit_channel (snd (dispatch request call_next w))
      = audit_channel w' ++ [line] /\
    dict_get line "id" = Some (PyStr (random_ids w O)) /\
    dict_get line "timestamp" = Some (PyStr (utcnow_isoformat w)).
Proof.
  intros H HL. run_dispatch_logged r H HL;
    eexists; repeat split; reflexivity.
Qed.

Lemma dispatch_stamped_on_arrival_witness :
  Sample.slow_route "2024-05-01T09:30:07.500000" (Example.response 200)
    Example.get_products (call_site Example.world)
    = (Returned (Example.response 200),
       snd (Sample.slow_route "2024-05-01T09:30:07.500000"
              (Example.response 200) Example.get_products
              (call_site Example.world))) /\
  reaches_log (Returned (Example.response 200)) = true /\
  utcnow_isoformat
    (snd (dispatch Example.get_products
            (Sample.slow_route "2024-05-01T09:30:07.500000"
               (Example.response 200))
            Example.world))
    = "2024-05-01T09:30:07.500000" /\
  exists line,
    audit_channel
      (snd (dispatch Example.get_products
              (Sample.slow_route "2024-05-01T09:30:07.500000"
                 (Example.response 200))
              Example.world))
      = audit_channel
          (snd (Sample.slow_route "2024-05-01T09:30:07.500000"
                  (Example.response 200) Example.get_products
                  (call_site Example.world)))
        ++ [line] /\
    dict_get line "id"
      = Some (PyStr "5b0c1e0e-7a0b-4c58-9d0e-2f6a1c3d4e5f") /\
    dict_get line "timestamp" = Some (PyStr "2024-05-01T09:30:00.000125").
Proof.
  split; [reflexivity |]. split; [reflexivity |]. split; [reflexivity |].
  exact (dispatch_stamped_on_arrival Example.get_products
           (Sample.slow_route "2024-05-01T09:30:07.500000"
              (Example.response 200))
           Example.world (Returned (Example.response 200))
           (snd (Sample.slow_route "2024-05-01T09:30:07.500000"
                   (Example.response 200) Example.get_products
                   (call_site Example.world)))
           eq_refl eq_refl).
Defined.

(** X4.  The details of the line have five keys, in this order: [method],
    [path], [query], and then [status_code] and [response_time_ms] when the
    downstream call returned, or [error] and [exception_type] when it
    raised.  So a line for a raised exception has no status code, and a line
    for a response has no error entry. *)
Theorem dispatch_details_keys request call_next w r w' :
  call_next request (call_site w) = (r, w') ->
  reaches_log r = true ->
  exists line details,
    audit_channel (snd (dispatch request call_next w))
      = audit_channel w' ++ [line] /\
    dict_get line "details" = Some (PyDict details) /\
    dict_keys details
      = match r with
        | Returned _ =>
            ["method"; "path"; "query"; "status_code"; "response_time_ms"]
        | Raised _ =>
            ["method"; "path"; "query"; "error"; "exception_type"]
        end /\
    match r with
    | Returned _ =>
        dict_get details "error" = None /\
        dict_get details "exception_type" = None
    | Raised _ =>
        dict_get details "status_code" = None /\
        dict_get details "response_time_ms" = None
    end.
Proof.
  intros H HL. run_dispatch_logged r H HL;
    do 2 eexists; repeat split; reflexivity.
Qed.

Lemma dispatch_details_keys_witness :
  Example.fail_with Example.boom Example.get_products
    (call_site Example.world)
    = (Raised Example.boom, call_site Example.world) /\
  reaches_log (@Raised Response.t Example.boom) = true /\
  exists line details,
    audit_channel
      (snd (dispatch Example.get_products (Example.fail_with Example.boom)
              Example.world))
      = audit_channel (call_site Example.world) ++ [line] /\
    dict_get line "details" = Some (PyDict details) /\
    dict_keys details
      = ["method"; "path"; "query"; "error"; "exception_type"] /\
    dict_get details "status_code" = None /\
    dict_get details "response_time_ms" = None.
Proof.
  split; [reflexivity |]. split; [reflexivity |].
  exact (dispatch_details_keys Example.get_products
           (Example.fail_with Example.boom) Example.world
           (Raised Example.boom) (call_site Example.world) eq_refl eq_refl).
Defined.

(** ** The middleware as an observer *)


(** X6.  [dispatch] consults the downstream handler once, on the request it
    was given and in the state it has prepared: two handlers that do the
    same there make [dispatch] do the same, however they differ on other
    requests and states. *)
Theorem dispatch_calls_next_once request call_next call_next' w :
  call_next request (call_site w) = call_next' request (call_site w) ->
  dispatch request call_next w = dispatch request call_next' w.
Proof.
  intros H. unfold call_site, uuid4 in H. cbn in H.
  unfold dispatch, AuditEvent_init, try_except_Exception, bind, uuid4,
    utcnow, ret.
  cbn. rewrite H. reflexivity.
Qed.

Lemma dispatch_calls_next_once_witness :
  Example.respond 200 Example.proxied (call_site Example.world)
    = (fun request =>
         if String.eqb (Request.method request) "GET"
         then Example.respond 200 request
         else Example.fail_with Example.boom request)
        Example.proxied (call_site Example.world) /\
  dispatch Example.proxied (Example.respond 200) Example.world
    = dispatch Example.proxied
        (fun request =>
           if String.eqb (Request.method request) "GET"
           then Example.respond 200 request
           else Example.fail_with Example.boom request)
        Example.world.
Proof.
  split; [reflexivity |].
  exact (dispatch_calls_next_once Example.proxied (Example.respond 200)
           (fun request =>
              if String.eqb (Request.method request) "GET"
              then Example.respond 200 request
              else Example.fail_with Example.boom request)
           Example.world eq_refl).
Defined.

(** ** The helper and the constructor *)


(** X8.  Two events logged one after the other take the first two
    identifiers of the random source, in that order, so their ids differ
    whenever the source does not repeat itself there; both lines are written,
    in the order of the calls. *)
Theorem log_audit_event_twice
    action resource outcome user_id resource_id details phi_accessed
    action' resource' outcome' user_id' resource_id' details' phi_accessed'
    w :
  random_ids w 0%nat <> random_ids w 1%nat ->
  exists first second,
    audit_channel
      (snd ((log_audit_event action resource outcome user_id resource_id
               details phi_accessed ;;;
             log_audit_event action' resource' outcome' user_id'
               resource_id' details' phi_accessed') w))
      = audit_channel w ++ [first; second] /\
    dict_get first "id" = Some (PyStr (random_ids w 0%nat)) /\
    dict_get second "id" = Some (PyStr (random_ids w 1%nat)) /\
    dict_get first "action" = Some (PyStr action) /\
    dict_get second "action" = Some (PyStr action') /\
    dict_get first "id" <> dict_get second "id".
Proof.
  intros Hfresh. do 2 eexists. split.
  - cbn. rewrite <- app_assoc. reflexivity.
  - repeat split; try reflexivity.
    cbn. intros Heq. apply Hfresh. now inversion Heq.
Qed.

Lemma log_audit_event_twice_witness :
  random_ids Sample.fresh_world 0%nat <> random_ids Sample.fresh_world 1%nat /\
  exists first second,
    audit_channel
      (snd ((log_audit_event AUDIT_ACTIONS.LOGIN "session" "success"
               (Some "user-17") None None false ;;;
             log_audit_event AUDIT_ACTIONS.ORDER_CANCEL "order" "failure"
               (Some "user-17") (Some "42") None true) Sample.fresh_world))
      = audit_channel Sample.fresh_world ++ [first; second] /\
    dict_get first "id" = Some (PyStr "id-0") /\
    dict_get second "id" = Some (PyStr "id-1") /\
    dict_get first "action" = Some (PyStr "user.login") /\
    dict_get second "action" = Some (PyStr "order.cancel") /\
    dict_get first "id" <> dict_get second "id".
Proof.
  split; [cbn; discriminate |].
  exact (log_audit_event_twice AUDIT_ACTIONS.LOGIN "session" "success"
           (Some "user-17") None None false
           AUDIT_ACTIONS.ORDER_CANCEL "order" "failure"
           (Some "user-17") (Some "42") None true Sample.fresh_world
           ltac:(cbn; discriminate)).
Defined.

(** X9.  When the downstream handler logs an event of its own through the
    helper and returns, the channel gains two lines: the handler's first and
    the middleware's after it, although the middleware's event was made
    first and holds the earlier identifier. *)
Theorem dispatch_around_logging_route request action resource outcome
    user_id resource_id details phi_accessed response w :
  exists route_line line,
    dispatch request
      (Sample.audited_route action resource outcome user_id resource_id
         details phi_accessed response) w
      = (Returned response,
         snd (audit_logger_info line
                (snd (audit_logger_info route_line
                        (call_site (call_site w)))))) /\
    audit_channel
      (snd (dispatch request
              (Sample.audited_route action resource outcome user_id
                 resource_id details phi_accessed response) w))
      = audit_channel w ++ [route_line; line] /\
    dict_get route_line "action" = Some (PyStr action) /\
    dict_get route_line "id" = Some (PyStr (random_ids w 1%nat)) /\
    dict_get line "action" = Some (PyStr "api.request") /\
    dict_get line "id" = Some (PyStr (random_ids w 0%nat)).
Proof.
  do 2 eexists. split; [reflexivity |]. split.
  - cbn. rewrite <- app_assoc. reflexivity.
  - repeat split; reflexivity.
Qed.

(** ** The action catalogue *)

(** X10.  No two entries of [AUDIT_ACTIONS] share a tag. *)
Theorem AUDIT_ACTIONS_distinct :
  NoDup
    [ AUDIT_ACTIONS.API_REQUEST;
      AUDIT_ACTIONS.PRODUCT_VIEW; AUDIT_ACTIONS.PRODUCT_CREATE;
      AUDIT_ACTIONS.PRODUCT_UPDATE; AUDIT_ACTIONS.PRODUCT_DELETE;
      AUDIT_ACTIONS.ORDER_CREATE; AUDIT_ACTIONS.ORDER_VIEW;
      AUDIT_ACTIONS.ORDER_UPDATE; AUDIT_ACTIONS.ORDER_CANCEL;
      AUDIT_ACTIONS.LOGIN; AUDIT_ACTIONS.LOGOUT; AUDIT_ACTIONS.LOGIN_FAILED;
      AUDIT_ACTIONS.SYSTEM_ACCESS; AUDIT_ACTIONS.CONFIG_CHANGE ].
Proof.
  repeat constructor; cbn; intuition discriminate.
Qed.

(** ** Configuration of the logger *)


(** ** Updating the details *)

Lemma dict_get_app (d d' : Dict) k :
  dict_get (d ++ d') k
    = match dict_get d k with
      | Some v => Some v
      | None => dict_get d' k
      end.
Proof.
  induction d as [| [k0 v0] rest IH]; cbn; [reflexivity |].
  destruct (String.eqb k0 k); [reflexivity | exact IH].
Qed.

Lemma dict_get_setitem d k v k' :
  dict_get (dict_setitem d k v) k'
    = if String.eqb k k' then Some v else dict_get d k'.
Proof.
  induction d as [| [k0 v0] rest IH]; cbn.
  - destruct (String.eqb k k'); reflexivity.
  - destruct (String.eqb_spec k0 k) as [E | NE]; cbn.
    + subst k0. destruct (String.eqb k k'); reflexivity.
    + rewrite IH. destruct (String.eqb_spec k0 k') as [E' | NE'].
      * subst k0. destruct (String.eqb_spec k k'); [congruence | reflexivity].
      * reflexivity.
Qed.

Lemma dict_keys_setitem d k v :
  dict_keys (dict_setitem d k v)
    = if existsb (String.eqb k) (dict_keys d)
      then dict_keys d else dict_keys d ++ [k].
Proof.
  induction d as [| [k0 v0] rest IH]; cbn; [reflexivity |].
  rewrite (String.eqb_sym k k0).
  destruct (String.eqb k0 k); cbn; [reflexivity |].
  fold (dict_keys (dict_setitem rest k v)). fold (dict_keys rest).
  rewrite IH. destruct (existsb (String.eqb k) (dict_keys rest)); reflexivity.
Qed.

Lemma existsb_eqb_In k (ks : list string) :
  existsb (String.eqb k) ks = true <-> In k ks.
Proof.
  rewrite existsb_exists. split.
  - intros [x [HIn E]]. apply String.eqb_eq in E. now subst x.
  - intros HIn. exists k. split; [exact HIn | apply String.eqb_refl].
Qed.

Lemma dict_keys_setitem_NoDup d k v :
  NoDup (dict_keys d) -> NoDup (dict_keys (dict_setitem d k v)).
Proof.
  intros ND. rewrite dict_keys_setitem.
  destruct (existsb (String.eqb k) (dict_keys d)) eqn:E; [exact ND |].
  apply NoDup_app; [exact ND | repeat constructor; intros [] | ].
  intros x HIn [Hx | []]. subst x.
  apply existsb_eqb_In in HIn. congruence.
Qed.

(** X12.  After [self.details.update(other)] a key of [other] reads the
    value [other] gives it (the last one, should [other] list the key more
    than once), and every key [other] does not have reads what it read
    before. *)
Theorem details_update_lookup other self k :
  dict_get (AuditEvent.details (AuditEvent.details_update other self)) k
    = match dict_get (rev other) k with
      | Some v => Some v
      | None => dict_get (AuditEvent.details self) k
      end.
Proof.
  cbn. generalize (AuditEvent.details self) as d.
  induction other as [| [k0 v0] rest IH]; intros d; cbn; [reflexivity |].
  unfold dict_update in IH |- *. cbn. rewrite IH.
  rewrite dict_get_app, dict_get_setitem. cbn.
  destruct (dict_get (rev rest) k); [reflexivity |].
  destruct (String.eqb k0 k); reflexivity.
Qed.

(** X13.  [self.details.update(other)] keeps the mapping well formed: when
    no key occurred twice before, none does after, and the keys that were
    there stay in their places, with the new ones after them. *)
Theorem details_update_keys other self :
  NoDup (dict_keys (AuditEvent.details self)) ->
  NoDup (dict_keys (AuditEvent.details (AuditEvent.details_update other self)))
  /\
  exists added,
    dict_keys (AuditEvent.details (AuditEvent.details_update other self))
      = dict_keys (AuditEvent.details self) ++ added.
Proof.
  cbn. generalize (AuditEvent.details self) as d.
  induction other as [| [k0 v0] rest IH]; intros d ND; cbn.
  - split; [exact ND | exists []; now rewrite app_nil_r].
  - unfold dict_update in IH |- *. cbn.
    destruct (IH (dict_setitem d k0 v0) (dict_keys_setitem_NoDup d k0 v0 ND))
      as [ND' [added Hadded]].
    split; [exact ND' |].
    rewrite Hadded, dict_keys_setitem.
    destruct (existsb (String.eqb k0) (dict_keys d)).
    + now exists added.
    + exists (k0 :: added). now rewrite <- app_assoc.
Qed.

Lemma details_update_keys_witness :
  NoDup (dict_keys [("method", PyStr "GET"); ("path", PyStr "/health")]) /\
  NoDup
    (dict_keys
       (AuditEvent.details
          (AuditEvent.details_update
             [("path", PyStr "/ready"); ("status_code", PyInt 200)]
             (AuditEvent.mk "id" "now" None None "api.request" "/health"
                None "success" "unknown" "unknown" None
                [("method", PyStr "GET"); ("path", PyStr "/health")]
                false)))) /\
  exists added,
    dict_keys
      (AuditEvent.details
         (AuditEvent.details_update
            [("path", PyStr "/ready"); ("status_code", PyInt 200)]
            (AuditEvent.mk "id" "now" None None "api.request" "/health"
               None "success" "unknown" "unknown" None
               [("method", PyStr "GET"); ("path", PyStr "/health")]
               false)))
      = ["method"; "path"] ++ added.
Proof.
  assert (ND : NoDup
                 (dict_keys
                    [("method", PyStr "GET"); ("path", PyStr "/health")])).
  { repeat constructor; cbn; intuition discriminate. }
  split; [exact ND |].
  exact (details_update_keys
           [("path", PyStr "/ready"); ("status_code", PyInt 200)]
           (AuditEvent.mk "id" "now" None None "api.request" "/health"
              None "success" "unknown" "unknown" None
              [("method", PyStr "GET"); ("path", PyStr "/health")] false)
           ND).
Defined.

(** ** Tenant enumerations *)

(** X14.  Looking a [TenantStatus] up by value gives a member exactly when
    the value is that member's: each member is found again from its own
    value, and any other string, differing from the four values even in
    case only, is refused. *)
Theorem TenantStatus_of_value_iff v member :
  TenantStatus.of_value v = Some member <-> TenantStatus.value member = v.
Proof.
  enum_of_value_iff
    ltac:(cbv [TenantStatus.of_value TenantStatus.members TenantStatus.value
               find])
    v member.
Qed.

Lemma TenantStatus_of_value_iff_witness :
  TenantStatus.of_value "suspended" = Some TenantStatus.SUSPENDED /\
  TenantStatus.of_value "Trial" = None.
Proof.
  split.
  - exact (proj2 (TenantStatus_of_value_iff "suspended"
                    TenantStatus.SUSPENDED) eq_refl).
  - reflexivity.
Defined.

(** X15.  The same for [TenantPlan]. *)
Theorem TenantPlan_of_value_iff v member :
  TenantPlan.of_value v = Some member <-> TenantPlan.value member = v.
Proof.
  enum_of_value_iff
    ltac:(cbv [TenantPlan.of_value TenantPlan.members TenantPlan.value find])
    v member.
Qed.

Lemma TenantPlan_of_value_iff_witness :
  TenantPlan.of_value "enterprise" = Some TenantPlan.ENTERPRISE /\
  TenantPlan.of_value "" = None.
Proof.
  split.
  - exact (proj2 (TenantPlan_of_value_iff "enterprise"
                    TenantPlan.ENTERPRISE) eq_refl).
  - reflexivity.
Defined.

(** ** The initial migration *)

Lemma has_table_In name ts : Migration.has_table name ts = true <-> In name ts.
Proof. apply existsb_eqb_In. Qed.

Lemma create_all_In metadata ts t :
  In t (Migration.create_all metadata ts) <-> In t ts \/ In t metadata.
Proof.
  unfold Migration.create_all. revert ts.
  induction metadata as [| name rest IH]; intros ts; cbn; [tauto |].
  rewrite IH. destruct (Migration.has_table name ts) eqn:E.
  - apply has_table_In in E. split; [tauto |].
    intros [H | [H | H]]; [tauto | subst; tauto | tauto].
  - rewrite in_app_iff. cbn. tauto.
Qed.

Lemma create_all_NoDup metadata ts :
  NoDup ts -> NoDup (Migration.create_all metadata ts).
Proof.
  unfold Migration.create_all. revert ts.
  induction metadata as [| name rest IH]; intros ts ND; cbn; [exact ND |].
  apply IH. destruct (Migration.has_table name ts) eqn:E; [exact ND |].
  apply NoDup_app; [exact ND | repeat constructor; intros [] |].
  intros x HIn [Hx | []]. subst x.
  apply has_table_In in HIn. congruence.
Qed.

Lemma drop_table_inv name env env' :
  Migration.drop_table name env = Some env' ->
  In name (Migration.tables env) /\
  (forall t, In t (Migration.tables env')
             <-> In t (Migration.tables env) /\ t <> name) /\
  Migration.printed env' = Migration.printed env.
Proof.
  unfold Migration.drop_table.
  destruct (Migration.has_table name (Migration.tables env)) eqn:E;
    [| discriminate].
  intros H. inversion H; subst env'; clear H. cbn.
  split; [now apply has_table_In |]. split; [| reflexivity].
  intros t. rewrite filter_In.
  destruct (String.eqb_spec name t) as [-> | NE]; cbn.
  - split; [intros [_ H]; discriminate | intros [_ H]; congruence].
  - split; [intros [H _]; split; [exact H | congruence] | tauto].
Qed.

(** What a [downgrade] that went through has done. *)
Lemma downgrade_inv env env' :
  Migration.downgrade env = Some env' ->
  (forall t, In t Migration.dropped -> In t (Migration.tables env)) /\
  (forall t, In t (Migration.tables env')
             <-> In t (Migration.tables env) /\ ~ In t Migration.dropped) /\
  Migration.printed env' = Migration.printed env.
Proof.
  unfold Migration.downgrade, Migration.and_then.
  destruct (Migration.drop_table "analytics" env) as [e1 |] eqn:D1;
    [| discriminate].
  destruct (Migration.drop_table "sso" e1) as [e2 |] eqn:D2; [| discriminate].
  destruct (Migration.drop_table "invoices" e2) as [e3 |] eqn:D3;
    [| discriminate].
  destruct (Migration.drop_table "payments" e3) as [e4 |] eqn:D4;
    [| discriminate].
  destruct (Migration.drop_table "orders" e4) as [e5 |] eqn:D5;
    [| discriminate].
  destruct (Migration.drop_table "products" e5) as [e6 |] eqn:D6;
    [| discriminate].
  intros D7.
  apply drop_table_inv in D1, D2, D3, D4, D5, D6, D7.
  destruct D1 as [I1 [F1 P1]], D2 as [I2 [F2 P2]], D3 as [I3 [F3 P3]],
    D4 as [I4 [F4 P4]], D5 as [I5 [F5 P5]], D6 as [I6 [F6 P6]],
    D7 as [I7 [F7 P7]].
  apply F6 in I7. destruct I7 as [I7 _].
  apply F5 in I7, I6. destruct I7 as [I7 _], I6 as [I6 _].
  apply F4 in I7, I6, I5.
  destruct I7 as [I7 _], I6 as [I6 _], I5 as [I5 _].
  apply F3 in I7, I6, I5, I4.
  destruct I7 as [I7 _], I6 as [I6 _], I5 as [I5 _], I4 as [I4 _].
  apply F2 in I7, I6, I5, I4, I3.
  destruct I7 as [I7 _], I6 as [I6 _], I5 as [I5 _], I4 as [I4 _],
    I3 as [I3 _].
  apply F1 in I7, I6, I5, I4, I3, I2.
  destruct I7 as [I7 _], I6 as [I6 _], I5 as [I5 _], I4 as [I4 _],
    I3 as [I3 _], I2 as [I2 _].
  split; [| split].
  - intros t HIn. cbn in HIn.
    repeat (destruct HIn as [<- | HIn]; [assumption |]). destruct HIn.
  - intros t. rewrite F7, F6, F5, F4, F3, F2, F1. cbn.
    split.
    + intros H. split; [tauto |].
      intros HD. repeat (destruct HD as [<- | HD]; [tauto |]). exact HD.
    + intros [H HD]. repeat split; try exact H;
        intros ->; apply HD; tauto.
  - congruence.
Qed.

(** X16.  On a database without tables [upgrade] creates the tables of the
    schema, each once and no other, and prints nothing. *)
Theorem upgrade_creates_schema metadata env :
  Migration.tables env = [] ->
  (forall t, In t (Migration.tables (Migration.upgrade metadata env))
             <-> In t metadata) /\
  NoDup (Migration.tables (Migration.upgrade metadata env)) /\
  Migration.printed (Migration.upgrade metadata env) = Migration.printed env.
Proof.
  intros Hempty. unfold Migration.upgrade. rewrite Hempty. cbn.
  split; [| split; [| reflexivity]].
  - intros t. rewrite create_all_In. cbn. tauto.
  - apply create_all_NoDup. constructor.
Qed.

Lemma upgrade_creates_schema_witness :
  Migration.tables Sample.empty_database = [] /\
  (forall t,
     In t (Migration.tables
             (Migration.upgrade Sample.schema Sample.empty_database))
     <-> In t Sample.schema) /\
  NoDup (Migration.tables
           (Migration.upgrade Sample.schema Sample.empty_database)) /\
  Migration.printed (Migration.upgrade Sample.schema Sample.empty_database)
    = Migration.printed Sample.empty_database.
Proof.
  split; [reflexivity |].
  exact (upgrade_creates_schema Sample.schema Sample.empty_database eq_refl).
Defined.

(** X17.  [upgrade] is safe to run again: a second run leaves the tables as
    the first run left them.  In particular a database that has any table
    at all, one of the schema or not, gets none created. *)
Theorem upgrade_idempotent metadata env :
  Migration.tables (Migration.upgrade metadata (Migration.upgrade metadata env))
    = Migration.tables (Migration.upgrade metadata env) /\
  match Migration.tables env with
  | [] => True
  | _ :: _ =>
      Migration.tables (Migration.upgrade metadata env) = Migration.tables env
  end.
Proof.
  destruct env as [ts out]. destruct ts as [| t ts]; cbn.
  - split; [| exact I]. unfold Migration.upgrade. cbn.
    destruct (Migration.create_all metadata []) as [| t ts] eqn:C; cbn;
      [exact C | reflexivity].
  - split; reflexivity.
Qed.

(** X18.  A [downgrade] that goes through found all seven tables it names,
    and leaves every other table of the database in place: what remains is
    what was there less those seven.  It prints nothing. *)
Theorem downgrade_drops_seven env env' :
  Migration.downgrade env = Some env' ->
  (forall t, In t Migration.dropped -> In t (Migration.tables env)) /\
  (forall t, In t (Migration.tables env')
             <-> In t (Migration.tables env) /\ ~ In t Migration.dropped) /\
  Migration.printed env' = Migration.printed env.
Proof. apply downgrade_inv. Qed.

Lemma downgrade_drops_seven_witness :
  Migration.downgrade (Migration.mkEnv Sample.schema [])
    = Some (Migration.mkEnv ["tenants"; "tenant_audit_logs"] []) /\
  (forall t, In t Migration.dropped -> In t Sample.schema) /\
  (forall t, In t ["tenants"; "tenant_audit_logs"]
             <-> In t Sample.schema /\ ~ In t Migration.dropped).
Proof.
  split; [reflexivity |].
  destruct (downgrade_drops_seven (Migration.mkEnv Sample.schema [])
              (Migration.mkEnv ["tenants"; "tenant_audit_logs"] []) eq_refl)
    as [Hall [Hrest _]].
  split; [exact Hall | exact Hrest].
Defined.

(** X19.  When the database lacks one of the seven tables, [downgrade]
    fails with the database's error. *)
Theorem downgrade_missing_table env name :
  In name Migration.dropped ->
  ~ In name (Migration.tables env) ->
  Migration.downgrade env = None.
Proof.
  intros Hname Hmissing.
  destruct (Migration.downgrade env) as [env' |] eqn:D; [| reflexivity].
  exfalso. apply Hmissing.
  exact (proj1 (downgrade_inv env env' D) name Hname).
Qed.

Lemma downgrade_missing_table_witness :
  In "sso" Migration.dropped /\
  ~ In "sso" ["users"; "products"; "orders"; "payments"; "invoices";
              "analytics"] /\
  Migration.downgrade
    (Migration.mkEnv
       ["users"; "products"; "orders"; "payments"; "invoices"; "analytics"]
       [])
    = None.
Proof.
  assert (Hname : In "sso" Migration.dropped) by (cbn; tauto).
  assert (Hmissing :
            ~ In "sso" ["users"; "products"; "orders"; "payments";
                        "invoices"; "analytics"]).
  { cbn. intuition discriminate. }
  split; [exact Hname |]. split; [exact Hmissing |].
  exact (downgrade_missing_table
           (Migration.mkEnv
              ["users"; "products"; "orders"; "payments"; "invoices";
               "analytics"] [])
           "sso" Hname Hmissing).
Defined.

(** X20.  [downgrade] undoes [upgrade] only in part.  Starting from a
    database without tables, when [downgrade] goes through after [upgrade],
    the tables left are the tables of the schema other than the seven; so the
    database is without tables again exactly when the schema has no table
    beyond those seven. *)
Theorem upgrade_then_downgrade metadata env env' :
  Migration.tables env = [] ->
  Migration.downgrade (Migration.upgrade metadata env) = Some env' ->
  (forall t, In t (Migration.tables env')
             <-> In t metadata /\ ~ In t Migration.dropped) /\
  (Migration.tables env' = []
   <-> forall t, In t metadata -> In t Migration.dropped).
Proof.
  intros Hempty D. apply downgrade_inv in D. destruct D as [_ [Hrest _]].
  assert (Hschema :
            forall t, In t (Migration.tables (Migration.upgrade metadata env))
                      <-> In t metadata).
  { intros t. unfold Migration.upgrade. rewrite Hempty. cbn.
    rewrite create_all_In. cbn. tauto. }
  assert (Hleft : forall t, In t (Migration.tables env')
                            <-> In t metadata /\ ~ In t Migration.dropped).
  { intros t. rewrite Hrest, Hschema. tauto. }
  split; [exact Hleft |]. split.
  - intros Hnone t Ht.
    destruct (in_dec string_dec t Migration.dropped) as [Hin | Hout];
      [exact Hin |].
    exfalso. assert (HIn : In t (Migration.tables env')) by (apply Hleft; tauto).
    rewrite Hnone in HIn. exact HIn.
  - intros Hsub. destruct (Migration.tables env') as [| t ts] eqn:E;
      [reflexivity |].
    exfalso. assert (HIn : In t (t :: ts)) by (now left).
    apply Hleft in HIn. destruct HIn as [Hmd Hout]. exact (Hout (Hsub t Hmd)).
Qed.

Lemma upgrade_then_downgrade_witness :
  Migration.tables Sample.empty_database = [] /\
  Migration.downgrade (Migration.upgrade Sample.schema Sample.empty_database)
    = Some (Migration.mkEnv ["tenants"; "tenant_audit_logs"] []) /\
  (forall t, In t ["tenants"; "tenant_audit_logs"]
             <-> In t Sample.schema /\ ~ In t Migration.dropped).
Proof.
  split; [reflexivity |]. split; [reflexivity |].
  exact (proj1 (upgrade_then_downgrade Sample.schema Sample.empty_database
                  (Migration.mkEnv ["tenants"; "tenant_audit_logs"] [])
                  eq_refl eq_refl)).
Defined.
